(** * ai-compare: the query endpoint and the comparison page

    A shallow embedding of [pages/api/query.js] (the server-side
    dispatcher: provider registry, credential check, one outbound call,
    classification of provider failures) and of the [AICompare] React
    component (fan-out of five calls, per-provider state, the summary
    effect), followed by the properties of the orchestration layer.

    Conventions.
    - A JavaScript string is a [string]; one character stands for one
      UTF-16 code unit, so [String.length] is [.length].
    - A JavaScript value that comes out of [JSON.parse] (or is about to go
      into [JSON.stringify]) is a [JV]; [JUndefined] is the value of a
      missing property.
    - A thrown exception is [Throw msg], with [msg] the [message] of the
      error object; the texts of the engine's own [TypeError]s follow V8.
    - [JSON.parse] and the printing of a number are the engine's, not the
      repository's: they are the two fields of the class [Runtime]. *)

From Stdlib Require Import PrimFloat Ascii.
From stdpp Require Import gmap strings list fin_maps pretty.

Set Default Proof Using "Type".
#[local] Set Warnings "-register-all,-clear-no-such-hyp".

(** ** JavaScript values *)

Module Js.

Inductive JV : Type :=
| JUndefined
| JNull
| JBool (b : bool)
| JNum (x : float)
| JStr (s : string)
| JArr (items : list JV)
| JObj (fields : list (string * JV)).

Inductive Except (A : Type) : Type :=
| Ok (a : A)
| Throw (msg : string).
Arguments Ok {A} a.
Arguments Throw {A} msg.

#[global] Instance except_ret : MRet Except := λ A a, Ok a.
#[global] Instance except_bind : MBind Except := λ A B k m,
  match m with
  | Ok a => k a
  | Throw msg => Throw msg
  end.

(** The engine's part: [JSON.parse] (a [SyntaxError] is a [Throw]) and
    [Number.prototype.toString]. *)
Class Runtime := {
  JSON_parse : string → Except JV;
  NumberToString : float → string
}.

(** [Boolean(v)]: what [!v], [v && _] and [v || _] test. *)
Definition truthy (v : JV) : bool :=
  match v with
  | JUndefined | JNull => false
  | JBool b => b
  | JNum x => negb (PrimFloat.is_zero x || PrimFloat.is_nan x)
  | JStr s => negb (String.eqb s "")
  | JArr _ | JObj _ => true
  end.

Definition nullish (v : JV) : bool :=
  match v with
  | JUndefined | JNull => true
  | _ => false
  end.

Fixpoint assoc (k : string) (fields : list (string * JV)) : JV :=
  match fields with
  | [] => JUndefined
  | (k', v) :: rest => if String.eqb k k' then v else assoc k rest
  end.

Definition cannot_read (v : JV) (k : string) : string :=
  "Cannot read properties of "
    +:+ (match v with JNull => "null" | _ => "undefined" end)
    +:+ " (reading '" +:+ k +:+ "')".

(** [v.k] for a name [k] that no prototype defines (every name the sources
    read: choices, message, content, text, candidates, parts, error,
    response, prompt, provider). *)
Definition prop (v : JV) (k : string) : Except JV :=
  match v with
  | JUndefined | JNull => Throw (cannot_read v k)
  | JObj fields => Ok (assoc k fields)
  | _ => Ok JUndefined
  end.

(** [v[0]]. *)
Definition first (v : JV) : Except JV :=
  match v with
  | JUndefined | JNull => Throw (cannot_read v "0")
  | JArr items => Ok (hd JUndefined items)
  | JStr (String c _) => Ok (JStr (String c EmptyString))
  | JObj fields => Ok (assoc "0" fields)
  | _ => Ok JUndefined
  end.

(** [v?.k] and [v?.[0]]: [undefined] on a nullish [v], never a throw. *)
Definition opt_prop (v : JV) (k : string) : JV :=
  match prop v k with
  | Ok x => x
  | Throw _ => JUndefined
  end.

Definition opt_first (v : JV) : JV :=
  match first v with
  | Ok x => x
  | Throw _ => JUndefined
  end.

(** [String(v)], which is also what a template literal and a property key
    make of [v]. *)
Fixpoint ToString `{Runtime} (v : JV) : string :=
  match v with
  | JUndefined => "undefined"
  | JNull => "null"
  | JBool true => "true"
  | JBool false => "false"
  | JNum x => NumberToString x
  | JStr s => s
  | JArr items =>
      String.concat ","
        (map (λ e, if nullish e then "" else ToString e) items)
  | JObj _ => "[object Object]"
  end.

(** An engine for the examples: it decodes two bodies and prints every
    number alike. *)
Definition sample_engine : Runtime := {|
  JSON_parse text :=
    if String.eqb text "null" then Ok JNull
    else if String.eqb text "{}" then Ok (JObj [])
    else Throw "Unexpected token";
  NumberToString _ := "0"
|}.

(** An engine that decodes every body to a completion whose message has no
    [content]. *)
Definition contentless_engine : Runtime := {|
  JSON_parse _ :=
    Ok (JObj [("choices", JArr [JObj [("message", JObj [("role", JStr "assistant")])]])]);
  NumberToString _ := "0"
|}.

End Js.
Import Js.

(** ** pages/api/query.js *)

Module Api.

Inductive Url : Type :=
| StaticUrl (u : string)
| DynamicUrl (f : string → string).

(** [process.env]. *)
Abbreviation Env := (gmap string string).

(** [process.env.K] inside a template literal. *)
Definition env_text (env : Env) (k : string) : string :=
  default "undefined" (env !! k).

(** [!apiKey] is false: the variable is set and not the empty string. *)
Definition key_present (apiKey : option string) : bool :=
  match apiKey with
  | Some k => negb (String.eqb k "")
  | None => false
  end.

Record Config : Type := {
  url : Url;
  getHeaders : Env → list (string * string);
  getBody : JV → JV;
  extractResponse : JV → Except JV;
  useDynamicUrl : bool;
  keyEnvVar : string;
  modelName : string
}.

Definition user_message (prompt : JV) : JV :=
  JArr [JObj [("role", JStr "user"); ("content", prompt)]].

(** [data.choices[0].message.content] *)
Definition choices_content (data : JV) : Except JV :=
  choices ← prop data "choices";
  choice ← first choices;
  message ← prop choice "message";
  prop message "content".

Definition chatgpt : Config := {|
  url := StaticUrl "https://api.openai.com/v1/chat/completions";
  getHeaders env :=
    [("Authorization", "Bearer " +:+ env_text env "OPENAI_API_KEY");
     ("Content-Type", "application/json")];
  getBody prompt :=
    JObj [("model", JStr "gpt-5.2");
          ("messages", user_message prompt);
          ("max_tokens", JNum 2048)];
  extractResponse := choices_content;
  useDynamicUrl := false;
  keyEnvVar := "OPENAI_API_KEY";
  modelName := "GPT-5.2"
|}.

Definition claude : Config := {|
  url := StaticUrl "https://api.anthropic.com/v1/messages";
  getHeaders env :=
    [("x-api-key", env_text env "ANTHROPIC_API_KEY");
     ("anthropic-version", "2023-06-01");
     ("Content-Type", "application/json")];
  getBody prompt :=
    JObj [("model", JStr "claude-opus-4-5-20251101");
          ("max_tokens", JNum 2048);
          ("messages", user_message prompt)];
  extractResponse data :=
    content ← prop data "content";
    block ← first content;
    prop block "text";
  useDynamicUrl := false;
  keyEnvVar := "ANTHROPIC_API_KEY";
  modelName := "Claude Opus 4.5"
|}.

(** [data.candidates[0]?.content?.parts?.[0]?.text], read once
    [data.candidates] is known to be truthy. *)
Definition gemini_text (candidates : JV) : JV :=
  opt_prop (opt_first (opt_prop (opt_prop (opt_first candidates) "content") "parts")) "text".

Definition gemini : Config := {|
  url := DynamicUrl (λ apiKey,
    "https://generativelanguage.googleapis.com/v1beta/models/gemini-3-pro:generateContent?key="
      +:+ apiKey);
  getHeaders env := [("Content-Type", "application/json")];
  getBody prompt :=
    JObj [("contents", JArr [JObj [("parts", JArr [JObj [("text", prompt)]])]])];
  extractResponse data :=
    candidates ← prop data "candidates";
    if truthy candidates && truthy (gemini_text candidates)
    then Ok (gemini_text candidates)
    else Throw "Unexpected Gemini response format";
  useDynamicUrl := true;
  keyEnvVar := "GOOGLE_API_KEY";
  modelName := "Gemini 3 Pro"
|}.

Definition grok : Config := {|
  url := StaticUrl "https://api.x.ai/v1/chat/completions";
  getHeaders env :=
    [("Authorization", "Bearer " +:+ env_text env "XAI_API_KEY");
     ("Content-Type", "application/json")];
  getBody prompt :=
    JObj [("model", JStr "grok-4");
          ("messages", user_message prompt);
          ("max_tokens", JNum 2048)];
  extractResponse := choices_content;
  useDynamicUrl := false;
  keyEnvVar := "XAI_API_KEY";
  modelName := "Grok 4"
|}.

Definition perplexity : Config := {|
  url := StaticUrl "https://api.perplexity.ai/chat/completions";
  getHeaders env :=
    [("Authorization", "Bearer " +:+ env_text env "PERPLEXITY_API_KEY");
     ("Content-Type", "application/json")];
  getBody prompt :=
    JObj [("model", JStr "sonar-pro");
          ("messages", user_message prompt);
          ("max_tokens", JNum 2048)];
  extractResponse := choices_content;
  useDynamicUrl := false;
  keyEnvVar := "PERPLEXITY_API_KEY";
  modelName := "Sonar Pro"
|}.

Definition PROVIDERS : list (string * Config) :=
  [("chatgpt", chatgpt); ("claude", claude); ("gemini", gemini);
   ("grok", grok); ("perplexity", perplexity)].

(** What [PROVIDERS[key]] evaluates to. [PROVIDERS] is an object literal, so
    a key it does not own is looked up on [Object.prototype], whose members
    are functions (and, for [__proto__], the prototype itself): truthy
    values none of which has a field of a [Config]. *)
Inductive Entry : Type :=
| Registered (config : Config)
| Inherited.

Definition object_prototype : list string :=
  ["constructor"; "hasOwnProperty"; "isPrototypeOf"; "propertyIsEnumerable";
   "toLocaleString"; "toString"; "valueOf"; "__proto__";
   "__defineGetter__"; "__defineSetter__"; "__lookupGetter__"; "__lookupSetter__"].

Fixpoint own (key : string) (table : list (string * Config)) : option Config :=
  match table with
  | [] => None
  | (k, config) :: rest => if String.eqb key k then Some config else own key rest
  end.

Definition lookup_provider (key : string) : option Entry :=
  match own key PROVIDERS with
  | Some config => Some (Registered config)
  | None => if bool_decide (key ∈ object_prototype) then Some Inherited else None
  end.

(** The inbound request, as far as the handler reads it. *)
Record Request : Type := { method : string; body : JV }.

(** The call [fetch(url, {method, headers, body})]; [out_body] is the value
    handed to [JSON.stringify]. *)
Record Outbound : Type := {
  out_url : string;
  out_method : string;
  out_headers : list (string * string);
  out_body : JV
}.

(** What the awaited [fetch] gives: a rejection, or a response with its
    status and what reading its body gives ([response.text()], and below
    [response.json()], reject when the body cannot be read). *)
Inductive Fetched : Type :=
| Rejected (msg : string)
| Response (status : Z) (text : Except string).

(** [response.ok] *)
Definition ok (status : Z) : bool := (200 <=? status)%Z && (status <=? 299)%Z.

Inductive Effect : Type :=
| Fetch (call : Outbound)
| ConsoleError (label detail : string).

(** [res.status(code).json(body)], or an exception that leaves the handler. *)
Inductive Reply : Type :=
| Responded (code : Z) (body : JV)
| Uncaught (msg : string).

Definition error_body (message : JV) : JV := JObj [("error", message)].

Section handler.
Context `{Runtime}.

(** Lines 131-145: the message before the status hints. *)
Definition parsed_message (config : Config) (status : Z) (errorData : string) : JV :=
  let errorMessage := JStr (modelName config +:+ " error (" +:+ pretty status +:+ ")") in
  let parsed :=
    parsed ← JSON_parse errorData;
    e ← prop parsed "error";
    if truthy (opt_prop e "message") then Ok (opt_prop e "message")
    else if truthy (opt_prop parsed "message") then Ok (opt_prop parsed "message")
    else Ok errorMessage in
  match parsed with
  | Ok message => message
  | Throw _ =>
      if (String.length errorData <? 200)%nat then JStr errorData else errorMessage
  end.

(** Lines 147-158: the hints that replace it. *)
Definition hinted_message (config : Config) (status : Z) (errorMessage : JV) : JV :=
  if (status =? 401)%Z then
    JStr ("Invalid API key for " +:+ modelName config +:+ ". Check your "
            +:+ keyEnvVar config +:+ " in Vercel.")
  else if (status =? 403)%Z then
    JStr ("Access denied for " +:+ modelName config +:+ ". Make sure billing is enabled.")
  else if (status =? 429)%Z then
    JStr ("Rate limited by " +:+ modelName config
            +:+ ". Wait a moment or check your usage limits.")
  else if (status =? 402)%Z then
    JStr ("Payment required for " +:+ modelName config
            +:+ ". Add a payment method to your account.")
  else if (status =? 404)%Z then
    JStr ("Model not found. " +:+ modelName config
            +:+ " may require special access or the model ID changed.")
  else errorMessage.

(** Lines 119-121. A static [url] called as a function throws; a function
    given to [fetch] as the address makes [fetch] throw. *)
Definition resolve_url (config : Config) (env : Env) : Except string :=
  match useDynamicUrl config, url config with
  | true, DynamicUrl f => Ok (f (env_text env "GOOGLE_API_KEY"))
  | true, StaticUrl _ => Throw "config.url is not a function"
  | false, StaticUrl u => Ok u
  | false, DynamicUrl _ => Throw "Failed to parse URL"
  end.

(** The [catch] of lines 168-171. *)
Definition caught (provider : JV) (name : string) (msg : string) : Reply * list Effect :=
  (Responded 500 (error_body (JStr (name +:+ ": " +:+ msg))),
   [ConsoleError ("Error with " +:+ ToString provider +:+ ":") msg]).

(** The arguments of the [fetch] of lines 123-127. *)
Definition outbound (config : Config) (env : Env) (prompt : JV) : Except Outbound :=
  url ← resolve_url config env;
  Ok {| out_url := url; out_method := "POST";
        out_headers := getHeaders config env;
        out_body := getBody config prompt |}.

(** Lines 118-171, for an entry of the registry. *)
Definition dispatch (net : Outbound → Fetched) (env : Env)
    (prompt provider : JV) (config : Config) : Reply * list Effect :=
  match outbound config env prompt with
  | Throw msg => caught provider (modelName config) msg
  | Ok call =>
      let '(reply, log) :=
        match net call with
        | Rejected msg => caught provider (modelName config) msg
        | Response status text =>
            if negb (ok status) then
              match text with
              | Throw msg => caught provider (modelName config) msg
              | Ok errorData =>
                  (Responded status
                     (error_body
                        (hinted_message config status
                           (parsed_message config status errorData))),
                   [ConsoleError (ToString provider +:+ " error:") errorData])
              end
            else
              match (raw ← text; data ← JSON_parse raw;
                     extractResponse config data) with
              | Throw msg => caught provider (modelName config) msg
              | Ok text =>
                  (Responded 200
                     (JObj [("response", text); ("model", JStr (modelName config))]),
                   [])
              end
        end in
      (reply, Fetch call :: log)
  end.

(** [const { prompt, provider } = req.body], which stands before the [try]. *)
Definition destructure (body : JV) : Except (JV * JV) :=
  match body with
  | JUndefined | JNull =>
      Throw ("Cannot destructure property 'prompt' of 'req.body' as it is "
               +:+ ToString body +:+ ".")
  | _ => Ok (opt_prop body "prompt", opt_prop body "provider")
  end.

(** [export default async function handler(req, res)] *)
Definition handler (net : Outbound → Fetched) (env : Env) (req : Request)
    : Reply * list Effect :=
  if negb (String.eqb (method req) "POST") then
    (Responded 405 (error_body (JStr "Method not allowed")), [])
  else
    match destructure (body req) with
    | Throw msg => (Uncaught msg, [])
    | Ok (prompt, provider) =>
        if negb (truthy prompt) || negb (truthy provider) then
          (Responded 400 (error_body (JStr "Missing prompt or provider")), [])
        else
          match lookup_provider (ToString provider) with
          | None => (Responded 400 (error_body (JStr "Unknown provider")), [])
          | Some (Registered config) =>
              let apiKey :=
                if useDynamicUrl config then env !! "GOOGLE_API_KEY"
                else env !! keyEnvVar config in
              if negb (key_present apiKey) then
                (Responded 500
                   (error_body
                      (JStr ("Missing API key: " +:+ keyEnvVar config
                               +:+ ". Add it in Vercel Environment Variables."))),
                 [])
              else dispatch net env prompt provider config
          | Some Inherited =>
              (* every field of [config] reads as [undefined] *)
              if negb (key_present (env !! "undefined")) then
                (Responded 500
                   (error_body
                      (JStr "Missing API key: undefined. Add it in Vercel Environment Variables.")),
                 [])
              else caught provider "undefined" "config.getHeaders is not a function"
          end
    end.


End handler.

End Api.

(** ** The AICompare component *)

Module Ui.

(** [color] and [icon] only style the card and are left out. *)
Record Provider : Type := { id : string; name : string; model : string }.

Definition AI_PROVIDERS : list Provider :=
  [ {| id := "chatgpt"; name := "ChatGPT"; model := "GPT-4o" |};
    {| id := "claude"; name := "Claude"; model := "Opus 4.5" |};
    {| id := "gemini"; name := "Gemini"; model := "2.5 Pro" |};
    {| id := "grok"; name := "Grok"; model := "4" |};
    {| id := "perplexity"; name := "Perplexity"; model := "Sonar Pro" |} ].

(** The six [useState] cells. *)
Record State : Type := {
  prompt : string;
  responses : gmap string JV;
  loading : gmap string bool;
  error : gmap string string;
  summary : JV;
  summaryLoading : bool
}.

Definition initial : State := {|
  prompt := ""; responses := ∅; loading := ∅; error := ∅;
  summary := JStr ""; summaryLoading := false
|}.

Definition setPrompt (text : string) (s : State) : State :=
  {| prompt := text; responses := responses s; loading := loading s;
     error := error s; summary := summary s; summaryLoading := summaryLoading s |}.
Definition setResponses (f : gmap string JV → gmap string JV) (s : State) : State :=
  {| prompt := prompt s; responses := f (responses s); loading := loading s;
     error := error s; summary := summary s; summaryLoading := summaryLoading s |}.
Definition setLoading (f : gmap string bool → gmap string bool) (s : State) : State :=
  {| prompt := prompt s; responses := responses s; loading := f (loading s);
     error := error s; summary := summary s; summaryLoading := summaryLoading s |}.
Definition setError (f : gmap string string → gmap string string) (s : State) : State :=
  {| prompt := prompt s; responses := responses s; loading := loading s;
     error := f (error s); summary := summary s; summaryLoading := summaryLoading s |}.
Definition setSummary (v : JV) (s : State) : State :=
  {| prompt := prompt s; responses := responses s; loading := loading s;
     error := error s; summary := v; summaryLoading := summaryLoading s |}.
Definition setSummaryLoading (b : bool) (s : State) : State :=
  {| prompt := prompt s; responses := responses s; loading := loading s;
     error := error s; summary := summary s; summaryLoading := b |}.

(** [responses[k]], [error[k]] and [loading[k]] as the values JavaScript
    reads. *)
Definition response_of (s : State) (k : string) : JV := default JUndefined (responses s !! k).
Definition error_of (s : State) (k : string) : JV := default JUndefined (JStr <$> error s !! k).
Definition loading_of (s : State) (k : string) : JV := default JUndefined (JBool <$> loading s !! k).

(** White space in the sense of [String.prototype.trim], among the code
    units below 256: TAB, LF, VT, FF, CR, SP and NBSP. *)
Definition is_white (c : Ascii.ascii) : bool :=
  bool_decide (Ascii.nat_of_ascii c ∈ [9; 10; 11; 12; 13; 32; 160]).

Fixpoint trim_start (s : string) : string :=
  match s with
  | String c rest => if is_white c then trim_start rest else s
  | EmptyString => EmptyString
  end.

Fixpoint trim_end (s : string) : string :=
  match s with
  | String c rest =>
      match trim_end rest with
      | EmptyString => if is_white c then EmptyString else String c EmptyString
      | kept => String c kept
      end
  | EmptyString => EmptyString
  end.

Definition trim (s : string) : string := trim_end (trim_start s).

(** The body of a [POST /api/query]. *)
Record ApiCall : Type := { call_prompt : string; call_provider : string }.

(** What the page gets back from one [fetch('/api/query')]: a rejection, or
    [res.ok] with what [await res.json()] gives. *)
Inductive Answer : Type :=
| Failed (msg : string)
| Answered (ok : bool) (json : Except JV).

(** What the component does to the outside: the [fetch] of line 217
    (one provider), the [fetch] of line 188 (the summary), and
    [console.error]. *)
Inductive Output : Type :=
| ProviderCall (c : ApiCall)
| SummaryCall (c : ApiCall)
| Logged (label detail : string).

(** [const successfulResponses = AI_PROVIDERS.filter((p) => responses[p.id])] *)
Definition successfulResponses (s : State) : list Provider :=
  List.filter (λ p, truthy (response_of s (id p))) AI_PROVIDERS.

(** [Object.values(loading).some(Boolean)] *)
Definition anyLoading (s : State) : bool :=
  existsb (λ b : bool, b) (map_to_list (loading s)).*2.

Definition newline : string := String "010"%char EmptyString.
Definition quote : string := String "034"%char EmptyString.

Section component.
Context `{Runtime}.

(** Lines 170-185 *)
Definition responseText (s : State) : string :=
  String.concat (newline +:+ newline +:+ "---" +:+ newline +:+ newline)
    (map (λ p, "### " +:+ name p +:+ " (" +:+ model p +:+ "):" +:+ newline
                 +:+ ToString (response_of s (id p)))
         (successfulResponses s)).

Definition summaryPrompt (s : State) : string :=
  "You are summarizing AI responses for comparison. The user asked: "
    +:+ quote +:+ prompt s +:+ quote +:+ newline +:+ newline
    +:+ "Here are the responses from different AI models:" +:+ newline +:+ newline
    +:+ responseText s +:+ newline +:+ newline
    +:+ "Provide a brief synthesis (3-5 sentences) highlighting:" +:+ newline
    +:+ "1. Key points where the AIs agree" +:+ newline
    +:+ "2. Notable differences in their recommendations" +:+ newline
    +:+ "3. Any unique insights from specific models" +:+ newline +:+ newline
    +:+ "Be concise and actionable. Don't list each AI separately - synthesize the information.".

(** The body of the [fetch] of lines 188-192. *)
Definition summary_call (s : State) : ApiCall :=
  {| call_prompt := summaryPrompt s; call_provider := "claude" |}.

(** [generateSummary], up to its [await]: lines 168-192. *)
Definition generateSummary (s : State) : State * list Output :=
  (setSummaryLoading true s, [SummaryCall (summary_call s)]).

(** [generateSummary], from the [await] on: lines 187-202. *)
Definition summary_settled (a : Answer) (s : State) : State * list Output :=
  let '(s, log) :=
    match a with
    | Failed msg => (s, [Logged "Summary generation failed:" msg])
    | Answered true (Throw msg) => (s, [Logged "Summary generation failed:" msg])
    | Answered true (Ok data) =>
        match prop data "response" with
        | Ok text => (setSummary text s, [])
        | Throw msg => (s, [Logged "Summary generation failed:" msg])
        end
    | Answered false _ => (s, [])
    end in
  (setSummaryLoading false s, log).

(** The effect of lines 160-165; React runs it after a render in which
    [loading] or [responses] is a new object. *)
Definition useEffect (s : State) : State * list Output :=
  if negb (anyLoading s) && (2 <=? length (successfulResponses s))
     && negb (truthy (summary s)) && negb (summaryLoading s)
  then generateSummary s
  else (s, []).

(** [handleSubmit], up to the [await]s: lines 206-221. *)
Definition handleSubmit (s : State) : State * list Output :=
  if negb (truthy (JStr (trim (prompt s)))) then (s, [])
  else
    (setLoading (λ _, foldl (λ acc p, <[id p := true]> acc) ∅ AI_PROVIDERS)
       (setSummary (JStr "") (setError (λ _, ∅) (setResponses (λ _, ∅) s))),
     map (λ p, ProviderCall {| call_prompt := prompt s; call_provider := id p |}) AI_PROVIDERS).

(** What the [try] of lines 216-229 ends in for [provider]: the [data] its
    call of [setResponses] closes over, or the exception its [catch]
    receives. *)
Inductive Tried : Type :=
| Respond (data : JV)
| Catch (msg : string).

Definition tried (provider : Provider) (a : Answer) : Tried :=
  match a with
  | Failed msg => Catch msg
  | Answered _ (Throw msg) => Catch msg
  | Answered true (Ok data) => Respond data
  | Answered false (Ok data) =>
      match prop data "error" with
      | Throw msg => Catch msg
      | Ok e => Catch (if truthy e then ToString e else name provider +:+ " failed")
      end
  end.

(** Lines 216-234 for one [provider], from the [await] on. The updater
    handed to [setResponses] reads [data.response] only when React applies
    it, outside the [try]: [None] is that read throwing ([data] is [null]),
    which fails the render instead of reaching the [catch]. *)
Definition provider_settled (provider : Provider) (a : Answer) (s : State) : option State :=
  match tried provider a with
  | Respond data =>
      match prop data "response" with
      | Ok text =>
          Some (setLoading (insert (id provider) false)
                  (setResponses (insert (id provider) text) s))
      | Throw _ => None
      end
  | Catch msg =>
      Some (setLoading (insert (id provider) false)
              (setError (insert (id provider) msg) s))
  end.






End component.






(** [hay] begins with [needle]; [needle] occurs in [hay]. *)
Fixpoint starts_with (needle hay : string) : bool :=
  match needle, hay with
  | EmptyString, _ => true
  | String a needle, String b hay => Ascii.eqb a b && starts_with needle hay
  | String _ _, EmptyString => false
  end.

Fixpoint contains (needle hay : string) : bool :=
  starts_with needle hay
  || match hay with
     | String _ rest => contains needle rest
     | EmptyString => false
     end.

(** A success of the query endpoint carries an object, never [null]: the
    answers for which the updater of line 229 can be applied. *)
Definition decodable (a : Answer) : bool :=
  match a with
  | Answered true (Ok data) => negb (nullish data)
  | _ => true
  end.

(** The summary call failed: rejected, answered with a failure status,
    or answered with a body that cannot be decoded or read. *)
Definition summary_failed (a : Answer) : bool :=
  match a with
  | Answered true (Ok data) => nullish data
  | _ => true
  end.





(** The request a [fetch('/api/query')] of the page puts to the handler:
    lines 188-192 and 217-221. *)
Definition posted (c : ApiCall) : Api.Request :=
  {| Api.method := "POST";
     Api.body := JObj [("prompt", JStr (call_prompt c));
                       ("provider", JStr (call_provider c))] |}.

(** What [fetch('/api/query')] gives the page for a reply of the handler,
    when the reply arrives. An exception that left the handler is answered
    by the framework with a 500 whose body is not JSON. *)
Definition seen_by_page (reply : Api.Reply) : Answer :=
  match reply with
  | Api.Responded code answer => Answered (Api.ok code) (Ok answer)
  | Api.Uncaught _ => Answered false (Throw "Unexpected token 'I'")
  end.

(** *** The body of a provider card: lines 333-351 *)

Inductive Node : Type :=
| Thinking
| ErrorText (msg : JV)
| ResponseText (text : JV)
| WaitingForPrompt
| Value (v : JV).

(** [{v && element}]: the element, or the falsy [v] itself as the child. *)
Definition jsx_and (v : JV) (element : Node) : Node :=
  if truthy v then element else Value v.

Definition card_body (s : State) (provider : Provider) : list Node :=
  let k := id provider in
  [ jsx_and (loading_of s k) Thinking;
    jsx_and (error_of s k) (ErrorText (error_of s k));
    jsx_and (response_of s k) (ResponseText (response_of s k));
    jsx_and (JBool (negb (truthy (loading_of s k)) && negb (truthy (error_of s k))
                      && negb (truthy (response_of s k))))
            WaitingForPrompt ].

(** React draws nothing for a boolean, [null], [undefined] or an empty
    string. *)
Definition drawn (n : Node) : bool :=
  match n with
  | Value (JUndefined | JNull | JBool _) => false
  | Value (JStr s) => negb (String.eqb s "")
  | _ => true
  end.

End Ui.

(** ** Sample runs *)

Module Samples.
Import Ui.

Definition succeeded (text : string) : Answer :=
  Answered true (Ok (JObj [("response", JStr text); ("model", JStr "m")])).

Definition card (n : nat) : Provider :=
  nth n AI_PROVIDERS {| id := ""; name := ""; model := "" |}.







End Samples.

(** ** Reading a trace of the handler *)

Module Trace.
Import Api.

(** The outbound calls and the [console.error] entries of a trace, in
    order. *)
Definition fetches (trace : list Effect) : list Outbound :=
  omap (λ e, match e with Fetch call => Some call | _ => None end) trace.

Definition logged (trace : list Effect) : list (string * string) :=
  omap (λ e, match e with ConsoleError label detail => Some (label, detail) | _ => None end)
    trace.

End Trace.

(** ** The rest of the page *)

Module Page.
Import Ui.

(** [disabled={!prompt.trim() || Object.values(loading).some(Boolean)}]
    and the label of the button: lines 272 and 277. *)
Definition submit_disabled (s : State) : bool :=
  negb (truthy (JStr (trim (prompt s)))) || anyLoading s.


(** [handleKeyDown]: lines 238-242, for an event with [e.key],
    [e.metaKey] and [e.ctrlKey]. *)
Definition handleKeyDown (key : string) (metaKey ctrlKey : bool) (s : State)
    : State * list Output :=
  if String.eqb key "Enter" && (metaKey || ctrlKey) then handleSubmit s else (s, []).

(** The summary panel: lines 283-298. [None] is the panel not being
    rendered. *)
Inductive PanelNode : Type :=
| Spinner
| SummaryText (text : JV)
| Synthesizing.

Definition summary_panel (s : State) : option (list PanelNode) :=
  if truthy (summary s) || summaryLoading s then
    Some ((if summaryLoading s then [Spinner] else [])
            ++ [if truthy (summary s) then SummaryText (summary s) else Synthesizing])
  else None.





End Page.

(** ** The first version of api/query.js and its batch function *)

Module Batch.
Import Api.

(** An entry of the first registry: it has no [keyEnvVar] and no
    [modelName] yet. *)
Record Adapter : Type := {
  url : Url;
  getHeaders : Env → list (string * string);
  getBody : JV → JV;
  extractResponse : JV → Except JV;
  useDynamicUrl : bool
}.

Definition chatgpt : Adapter := {|
  url := StaticUrl "https://api.openai.com/v1/chat/completions";
  getHeaders env :=
    [("Authorization", "Bearer " +:+ env_text env "OPENAI_API_KEY");
     ("Content-Type", "application/json")];
  getBody prompt :=
    JObj [("model", JStr "gpt-4o");
          ("messages", user_message prompt);
          ("max_tokens", JNum 2048)];
  extractResponse := choices_content;
  useDynamicUrl := false
|}.

Definition claude : Adapter := {|
  url := StaticUrl "https://api.anthropic.com/v1/messages";
  getHeaders env :=
    [("x-api-key", env_text env "ANTHROPIC_API_KEY");
     ("anthropic-version", "2023-06-01");
     ("Content-Type", "application/json")];
  getBody prompt :=
    JObj [("model", JStr "claude-sonnet-4-20250514");
          ("max_tokens", JNum 2048);
          ("messages", user_message prompt)];
  extractResponse data :=
    content ← prop data "content";
    block ← first content;
    prop block "text";
  useDynamicUrl := false
|}.

Definition gemini : Adapter := {|
  url := DynamicUrl (λ apiKey,
    "https://generativelanguage.googleapis.com/v1beta/models/gemini-2.0-flash:generateContent?key="
      +:+ apiKey);
  getHeaders env := [("Content-Type", "application/json")];
  getBody prompt :=
    JObj [("contents", JArr [JObj [("parts", JArr [JObj [("text", prompt)]])]])];
  extractResponse data :=
    candidates ← prop data "candidates";
    candidate ← first candidates;
    content ← prop candidate "content";
    parts ← prop content "parts";
    part ← first parts;
    prop part "text";
  useDynamicUrl := true
|}.

Definition grok : Adapter := {|
  url := StaticUrl "https://api.x.ai/v1/chat/completions";
  getHeaders env :=
    [("Authorization", "Bearer " +:+ env_text env "XAI_API_KEY");
     ("Content-Type", "application/json")];
  getBody prompt :=
    JObj [("model", JStr "grok-3");
          ("messages", user_message prompt);
          ("max_tokens", JNum 2048)];
  extractResponse := choices_content;
  useDynamicUrl := false
|}.

Definition perplexity : Adapter := {|
  url := StaticUrl "https://api.perplexity.ai/chat/completions";
  getHeaders env :=
    [("Authorization", "Bearer " +:+ env_text env "PERPLEXITY_API_KEY");
     ("Content-Type", "application/json")];
  getBody prompt :=
    JObj [("model", JStr "sonar-pro");
          ("messages", user_message prompt);
          ("max_tokens", JNum 2048)];
  extractResponse := choices_content;
  useDynamicUrl := false
|}.

Definition PROVIDERS : list (string * Adapter) :=
  [("chatgpt", chatgpt); ("claude", claude); ("gemini", gemini);
   ("grok", grok); ("perplexity", perplexity)].

(** An element of the array [queryAll] returns: [{provider, response}] or
    [{provider, error}]. *)
Inductive Result : Type :=
| Response_of (provider : string) (response : JV)
| Error_of (provider : string) (error : string).

Definition provider (r : Result) : string :=
  match r with
  | Response_of name _ | Error_of name _ => name
  end.

Section queryAll.
Context `{Runtime}.

(** The arguments of the [fetch] of one entry. *)
Definition request (config : Adapter) (env : Env) (prompt : JV) : Except Outbound :=
  address ←
    match useDynamicUrl config, url config with
    | true, DynamicUrl f => Ok (f (env_text env "GOOGLE_API_KEY"))
    | true, StaticUrl _ => Throw "config.url is not a function"
    | false, StaticUrl u => Ok u
    | false, DynamicUrl _ => Throw "Failed to parse URL"
    end;
  Ok {| out_url := address; out_method := "POST";
        out_headers := getHeaders config env;
        out_body := getBody config prompt |}.

(** The async function mapped over the entries: how its promise settles
    (the value it returns, or the message of what it throws), and the call
    it made. *)
Definition query_one (net : Outbound → Fetched) (env : Env) (prompt : JV)
    (entry : string * Adapter) : Except (string * JV) * list Outbound :=
  match request entry.2 env prompt with
  | Throw msg => (Throw msg, [])
  | Ok call =>
      (match net call with
       | Rejected msg => Throw msg
       | Response status text =>
           if negb (ok status) then Throw (entry.1 +:+ " failed")
           else
             raw ← text; data ← JSON_parse raw;
             response ← extractResponse entry.2 data;
             Ok (entry.1, response)
       end,
       [call])
  end.

(** [export async function queryAll(prompt)], with the calls it makes in
    the order it makes them. *)
Definition queryAll (net : Outbound → Fetched) (env : Env) (prompt : JV)
    : list Result * list Outbound :=
  let results := map (query_one net env prompt) PROVIDERS in
  (imap (λ i result,
           match result.1 with
           | Ok (name, response) => Response_of name response
           | Throw msg => Error_of (default "undefined" (PROVIDERS.*1 !! i)) msg
           end)
        results,
   concat (results.*2)).

End queryAll.

End Batch.

(** ** More samples *)

Module More_samples.
Import Api Ui Samples.


Definition ask (provider : string) : Request :=
  {| method := "POST";
     body := JObj [("prompt", JStr "hi"); ("provider", JStr provider)] |}.

Definition offline : Outbound → Fetched := λ _, Rejected "offline".

Definition claude_env : Env := {["ANTHROPIC_API_KEY" := "sk"]}.

Definition claude_call : Outbound :=
  {| out_url := "https://api.anthropic.com/v1/messages"; out_method := "POST";
     out_headers := [("x-api-key", "sk"); ("anthropic-version", "2023-06-01");
                     ("Content-Type", "application/json")];
     out_body := getBody claude (JStr "hi") |}.

Definition gemini_body : JV :=
  JObj [("candidates",
         JArr [JObj [("content", JObj [("parts", JArr [JObj [("text", JStr "Hi")]])])]])].

Definition chat_body : JV :=
  JObj [("choices", JArr [JObj [("message", JObj [("content", JStr "Hello")])]])].

(** The state of a run in which every provider is loading. *)
Definition all_loading : State := (handleSubmit (setPrompt "hi" initial)).1.


End More_samples.

(** * Properties *)

(** ** The query endpoint *)

Module Api_facts.
Import Api.

Section facts.
Context `{Runtime}.

Implicit Types (net : Outbound → Fetched) (env : Env) (config : Config).

Lemma registered_cases key config :
  own key PROVIDERS = Some config →
  config = chatgpt ∨ config = claude ∨ config = gemini
  ∨ config = grok ∨ config = perplexity.
Proof.
  unfold PROVIDERS; cbn [own].
  repeat (case_match; [intros [= <-]; tauto|]).
  discriminate.
Qed.

(** For an entry of the registry the two sides of the conditional of lines
    108-110 read the same variable. *)
Lemma registered_key key config env :
  own key PROVIDERS = Some config →
  (if useDynamicUrl config then env !! "GOOGLE_API_KEY" else env !! keyEnvVar config)
  = env !! keyEnvVar config.
Proof.
  intros Hreg. destruct (registered_cases _ _ Hreg) as [->|[->|[->|[->| ->]]]]; done.
Qed.

Lemma registered_outbound key config env prompt :
  own key PROVIDERS = Some config →
  ∃ call, outbound config env prompt = Ok call.
Proof.
  intros Hreg. destruct (registered_cases _ _ Hreg) as [->|[->|[->|[->| ->]]]];
    eexists; reflexivity.
Qed.

Lemma lookup_registered key config :
  own key PROVIDERS = Some config → lookup_provider key = Some (Registered config).
Proof. unfold lookup_provider. by intros ->. Qed.

(** A well-formed POST for a registered provider whose credential is set
    reaches [dispatch]. *)
Lemma handler_dispatches net env req prompt provider config :
  method req = "POST" →
  destructure (body req) = Ok (prompt, provider) →
  truthy prompt = true → truthy provider = true →
  own (ToString provider) PROVIDERS = Some config →
  key_present (env !! keyEnvVar config) = true →
  handler net env req = dispatch net env prompt provider config.
Proof.
  intros Hm Hb Hp Hq Hreg Hkey. unfold handler.
  rewrite Hm, Hb, Hp, Hq, (lookup_registered _ _ Hreg); cbn.
  by rewrite (registered_key _ _ _ Hreg), Hkey.
Qed.

(** C10. A request whose method is not POST is answered 405 with an error
    body; the answer is the same whatever the body, the environment and the
    network are, and nothing is fetched or logged. *)
Theorem handler_method_not_allowed net env req :
  method req ≠ "POST" →
  handler net env req = (Responded 405 (error_body (JStr "Method not allowed")), [])
  ∧ ∀ net' env' body',
      handler net' env' {| method := method req; body := body' |} = handler net env req.
Proof.
  intros Hm. apply String.eqb_neq in Hm.
  unfold handler; cbn. by rewrite Hm.
Qed.

(** The guard of lines 112-116. *)
Lemma missing_key_reply net env req prompt provider config :
  method req = "POST" →
  destructure (body req) = Ok (prompt, provider) →
  truthy prompt = true → truthy provider = true →
  own (ToString provider) PROVIDERS = Some config →
  key_present (env !! keyEnvVar config) = false →
  handler net env req
  = (Responded 500
       (error_body
          (JStr ("Missing API key: " +:+ keyEnvVar config
                   +:+ ". Add it in Vercel Environment Variables."))),
     []).
Proof.
  intros Hm Hb Hp Hq Hreg Hkey. unfold handler.
  rewrite Hm, Hb, Hp, Hq, (lookup_registered _ _ Hreg); cbn.
  by rewrite (registered_key _ _ _ Hreg), Hkey.
Qed.

(** C3. A POST with a prompt that names a registered provider whose
    credential variable is not in the environment is answered 500 with a
    message that names the variable, and no outbound call is made (nothing
    at all is fetched or logged). *)
Theorem handler_missing_credential net env req prompt provider config :
  method req = "POST" →
  destructure (body req) = Ok (prompt, provider) →
  truthy prompt = true → truthy provider = true →
  own (ToString provider) PROVIDERS = Some config →
  env !! keyEnvVar config = None →
  handler net env req
  = (Responded 500
       (error_body
          (JStr ("Missing API key: " +:+ keyEnvVar config
                   +:+ ". Add it in Vercel Environment Variables."))),
     []).
Proof.
  intros Hm Hb Hp Hq Hreg Hkey.
  apply (missing_key_reply _ _ _ _ _ _ Hm Hb Hp Hq Hreg). by rewrite Hkey.
Qed.




(** Every body the handler sends is an object. *)
Lemma handler_reply_object net env req code answer :
  (handler net env req).1 = Responded code answer → ∃ fields, answer = JObj fields.
Proof.
  unfold handler.
  destruct (negb (String.eqb _ _)); [intros [= _ <-]; by eexists|].
  destruct (destructure _) as [[prompt provider]|]; [|done].
  destruct (negb (truthy prompt) || negb (truthy provider)); [intros [= _ <-]; by eexists|].
  destruct (lookup_provider _) as [[config|]|]; [| |intros [= _ <-]; by eexists].
  - destruct (negb _); [intros [= _ <-]; by eexists|].
    unfold dispatch.
    destruct (outbound _ _ _) as [call|]; [|intros [= _ <-]; by eexists].
    destruct (net call) as [|status [raw|]]; cbn; [intros [= _ <-]; by eexists| |].
    + destruct (negb (ok status)); [intros [= _ <-]; by eexists|].
      destruct (JSON_parse raw) as [data|]; cbn; [|intros [= _ <-]; by eexists].
      destruct (extractResponse config data); intros [= _ <-]; by eexists.
    + destruct (negb (ok status)); intros [= _ <-]; by eexists.
  - destruct (negb _); intros [= _ <-]; by eexists.
Qed.

(** The Gemini extractor refuses a body without the text it looks for. *)
Lemma gemini_malformed_is_failure net env req prompt provider call raw data :
  method req = "POST" →
  destructure (body req) = Ok (prompt, provider) →
  truthy prompt = true → truthy provider = true →
  ToString provider = "gemini" →
  key_present (env !! "GOOGLE_API_KEY") = true →
  outbound gemini env prompt = Ok call →
  net call = Response 200 (Ok raw) →
  JSON_parse raw = Ok data →
  truthy (gemini_text (opt_prop data "candidates")) = false →
  ∃ msg, (handler net env req).1 = Responded 500 (error_body (JStr ("Gemini 3 Pro: " +:+ msg))).
Proof.
  intros Hm Hb Hp Hq Hname Hkey Hcall Hnet Hparse Htext.
  rewrite (handler_dispatches _ _ _ prompt provider gemini) by (by rewrite ?Hname).
  unfold dispatch. rewrite Hcall, Hnet; cbn. rewrite Hparse; cbn.
  destruct (prop data "candidates") as [candidates|msg] eqn:Hc; cbn; [|by eexists].
  assert (opt_prop data "candidates" = candidates) as Heq
    by (unfold opt_prop; by rewrite Hc).
  rewrite Heq in Htext. rewrite Htext, andb_false_r. by eexists.
Qed.

(** C5, at the input where the code departs from it. A 200 from the
    OpenAI-style endpoint whose first choice has a message without
    [content] is answered 200, with [response] undefined: the extractor of
    [chatgpt] (and of [grok] and [perplexity]) reads the last field without
    the check that the extractor of [gemini] makes. *)
Theorem chatgpt_missing_content_answers_200 net env raw call :
  key_present (env !! "OPENAI_API_KEY") = true →
  outbound chatgpt env (JStr "hi") = Ok call →
  net call = Response 200 (Ok raw) →
  JSON_parse raw
  = Ok (JObj [("choices", JArr [JObj [("message", JObj [("role", JStr "assistant")])]])]) →
  handler net env
    {| method := "POST";
       body := JObj [("prompt", JStr "hi"); ("provider", JStr "chatgpt")] |}
  = (Responded 200 (JObj [("response", JUndefined); ("model", JStr "GPT-5.2")]),
     [Fetch call]).
Proof.
  intros Hkey Hcall Hnet Hparse.
  rewrite (handler_dispatches _ _ _ (JStr "hi") (JStr "chatgpt") chatgpt) by done.
  unfold dispatch. rewrite Hcall, Hnet; cbn. by rewrite Hparse.
Qed.

End facts.

Lemma handler_method_not_allowed_witness :
  "GET" ≠ "POST"
  ∧ @handler sample_engine (λ _, Rejected "offline") ∅
      {| method := "GET"; body := JUndefined |}
    = (Responded 405 (error_body (JStr "Method not allowed")), []).
Proof.
  split; [done|].
  apply (@handler_method_not_allowed sample_engine (λ _, Rejected "offline") ∅
           {| method := "GET"; body := JUndefined |}).
  done.
Defined.

Lemma handler_missing_credential_witness :
  handler (H := sample_engine) (λ _, Rejected "offline") {["OPENAI_API_KEY" := "sk"]}
    {| method := "POST";
       body := JObj [("prompt", JStr "hi"); ("provider", JStr "claude")] |}
  = (Responded 500
       (error_body
          (JStr "Missing API key: ANTHROPIC_API_KEY. Add it in Vercel Environment Variables.")),
     []).
Proof.
  apply (@handler_missing_credential sample_engine _ _ _ (JStr "hi") (JStr "claude") claude);
    reflexivity.
Defined.


Lemma chatgpt_missing_content_answers_200_witness :
  (handler (H := contentless_engine) (λ _, Response 200 (Ok "{}")) {["OPENAI_API_KEY" := "sk"]}
     {| method := "POST";
        body := JObj [("prompt", JStr "hi"); ("provider", JStr "chatgpt")] |}).1
  = Responded 200 (JObj [("response", JUndefined); ("model", JStr "GPT-5.2")]).
Proof.
  rewrite (@chatgpt_missing_content_answers_200 contentless_engine
             (λ _, Response 200 (Ok "{}")) {["OPENAI_API_KEY" := "sk"]} "{}"
             {| out_url := "https://api.openai.com/v1/chat/completions"; out_method := "POST";
                out_headers := getHeaders chatgpt {["OPENAI_API_KEY" := "sk"]};
                out_body := getBody chatgpt (JStr "hi") |}
          ); by vm_compute.
Defined.

End Api_facts.

(** ** The comparison page *)

Module Ui_facts.
Import Ui.

Section facts.
Context `{Runtime}.

Implicit Types (s : State) (provider : Provider) (a : Answer).

Lemma anyLoading_true s : anyLoading s = true ↔ ∃ k, loading s !! k = Some true.
Proof.
  unfold anyLoading. rewrite existsb_exists. split.
  - intros (b & Hin & ->). apply list_elem_of_In, list_elem_of_fmap in Hin
      as ([k b] & -> & Hin). exists k. by apply elem_of_map_to_list in Hin.
  - intros [k Hk]. exists true. split; [|done].
    apply list_elem_of_In, list_elem_of_fmap. exists (k, true).
    split; [done|]. by apply elem_of_map_to_list.
Qed.


(** The replies of the handler are decodable. *)
Lemma handler_decodable net env req : decodable (seen_by_page (Api.handler net env req).1) = true.
Proof.
  destruct (Api.handler net env req).1 as [code answer|msg] eqn:Hreply; [|done].
  apply Api_facts.handler_reply_object in Hreply as [fields ->].
  cbn. by destruct (Api.ok code).
Qed.




Lemma filter_filter_id {A} (f g : A → bool) (l : list A) :
  List.filter (λ x, f x && g x) l = List.filter f (List.filter g l).
Proof.
  induction l as [|x l IH]; [done|]; cbn.
  destruct (g x); cbn; [|by rewrite andb_false_r].
  rewrite andb_true_r. destruct (f x); by rewrite IH.
Qed.

Lemma response_of_insert s k text k' :
  response_of (setLoading (insert k false) (setResponses (insert k text) s)) k'
  = if String.eqb k' k then text else response_of s k'.
Proof.
  unfold response_of; cbn. case String.eqb_spec; [intros ->|intros Hne].
  - by rewrite lookup_insert_eq.
  - by rewrite lookup_insert_ne.
Qed.

(** C8. A success whose text is the empty string leaves its provider
    outside [successfulResponses], so outside the count the effect tests
    and outside the synthesis prompt, which reads as if the provider had no
    entry; and the card of the provider draws the idle placeholder only. *)
Theorem empty_text_not_succeeded provider data s :
  prop data "response" = Ok (JStr "") →
  error s !! id provider = None →
  ∃ s', provider_settled provider (Answered true (Ok data)) s = Some s'
    ∧ successfulResponses s'
      = List.filter (λ q, negb (String.eqb (id q) (id provider))) (successfulResponses s)
    ∧ responseText s' = responseText (setResponses (delete (id provider)) s)
    ∧ List.filter drawn (card_body s' provider) = [WaitingForPrompt].
Proof.
  intros Hdata Herr.
  set (s' := setLoading (insert (id provider) false)
               (setResponses (insert (id provider) (JStr "")) s)).
  exists s'. split; [unfold provider_settled, tried; by rewrite Hdata|].
  assert (∀ l, List.filter (λ p, truthy (response_of s' (id p))) l
               = List.filter (λ q, negb (String.eqb (id q) (id provider)))
                   (List.filter (λ p, truthy (response_of s (id p))) l)) as Hfilter.
  { intros l. rewrite <-filter_filter_id. apply List.filter_ext. intros q.
    unfold s'. rewrite response_of_insert. by destruct (String.eqb _ _). }
  assert (∀ l, List.filter (λ p, truthy (response_of s' (id p))) l
               = List.filter (λ p, truthy (response_of
                   (setResponses (delete (id provider)) s) (id p))) l) as Hdelete.
  { intros l. apply List.filter_ext. intros q.
    unfold s'. rewrite response_of_insert. unfold response_of; cbn.
    case String.eqb_spec; [intros ->; by rewrite lookup_delete_eq|intros Hne].
    by rewrite lookup_delete_ne. }
  split; [apply Hfilter|]. split.
  - unfold responseText, successfulResponses. rewrite Hdelete. f_equal.
    set (l := List.filter _ _).
    apply List.map_ext_in. intros q [_ Hq]%List.filter_In.
    do 6 f_equal.
    unfold s'. rewrite response_of_insert. unfold response_of in *; cbn in *.
    case String.eqb_spec; [intros Heq|intros Hne].
    + rewrite Heq, lookup_delete_eq in Hq. done.
    + by rewrite lookup_delete_ne.
  - subst s'. unfold card_body, loading_of, error_of, response_of; cbn.
    by rewrite !lookup_insert_eq, Herr.
Qed.

(** When the summary call comes back with a status outside 200-299 the
    continuation ends the loading state and does nothing else: the summary
    is not set, and nothing is logged ([console.error] stands in the
    [catch] only). *)
Lemma failed_summary_response json s :
  summary_settled (Answered false json) s = (setSummaryLoading false s, []).
Proof. reflexivity. Qed.

Lemma summaryPrompt_truthy s : truthy (JStr (summaryPrompt s)) = true.
Proof. reflexivity. Qed.

(** C7, at the input where the code departs from it. With the credential
    of claude missing, the summary call is answered 500 by the handler,
    which logs nothing on that path, and the continuation of the page,
    which logs in its [catch] only, ends the loading state and logs
    nothing: the failure of the summary is logged nowhere. *)
Theorem failed_summary_not_logged net env s :
  env !! "ANTHROPIC_API_KEY" = None →
  ∃ message,
    Api.handler net env (posted (summary_call s))
    = (Api.Responded 500 (Api.error_body message), [])
    ∧ summary_settled
        (seen_by_page (Api.handler net env (posted (summary_call s))).1) s
      = (setSummaryLoading false s, []).
Proof.
  intros Hkey. eexists.
  rewrite (Api_facts.missing_key_reply net env _
             (JStr (summaryPrompt s)) (JStr "claude") Api.claude);
    [done|done|done|apply summaryPrompt_truthy|done|done|cbn; by rewrite Hkey].
Qed.

(** A failed summary leaves every cell but [summaryLoading] as it was, and
    a failure that throws is logged. *)
Lemma failed_summary_is_silent a s :
  summary_failed a = true →
  (summary_settled a s).1 = setSummaryLoading false s
  ∧ ((∀ json, a ≠ Answered false json) →
     ∃ msg, (summary_settled a s).2 = [Logged "Summary generation failed:" msg]).
Proof.
  destruct a as [msg|[] [data|msg]]; cbn; intros Ha.
  - split; [done|]. by eexists.
  - destruct data; try done; cbn; (split; [done|]); by eexists.
  - split; [done|]. by eexists.
  - split; [done|]. intros Hne. by destruct (Hne (Ok data)).
  - split; [done|]. intros Hne. by destruct (Hne (Throw msg)).
Qed.



Lemma append_nil_r (a : string) : a +:+ "" = a.
Proof.
  induction a as [|x a IH]; [done|].
  change (String x (a +:+ "") = String x a). by rewrite IH.
Qed.

Lemma contains_unfold needle hay :
  contains needle hay
  = starts_with needle hay
    || match hay with String _ rest => contains needle rest | EmptyString => false end.
Proof. by destruct hay. Qed.

Lemma prefix_append needle rest : starts_with needle (needle +:+ rest) = true.
Proof.
  induction needle as [|x needle IH]; [reflexivity|].
  change (Ascii.eqb x x && starts_with needle (needle +:+ rest) = true).
  by rewrite Ascii.eqb_refl, IH.
Qed.

Lemma contains_append before needle rest :
  contains needle (before +:+ needle +:+ rest) = true.
Proof.
  induction before as [|x before IH].
  - change ("" +:+ needle +:+ rest) with (needle +:+ rest).
    by rewrite contains_unfold, prefix_append.
  - change (String x before +:+ needle +:+ rest)
      with (String x (before +:+ needle +:+ rest)).
    by rewrite contains_unfold, IH, orb_true_r.
Qed.







(** *** One run *)




Lemma useEffect_waits s : anyLoading s = true → useEffect s = (s, []).
Proof. unfold useEffect. by intros ->. Qed.


(** The render between the [setResponses] of line 229 and the
    [setLoading] of line 233, if React does not batch the two, runs the
    effect with the provider still loading: nothing fires in it, so one
    step for the whole continuation loses nothing. *)
Lemma intermediate_render_waits provider text s :
  loading s !! id provider = Some true →
  useEffect (setResponses (insert (id provider) text) s)
  = (setResponses (insert (id provider) text) s, []).
Proof.
  intros Hload. apply useEffect_waits, anyLoading_true. by exists (id provider).
Qed.

(** The effect of the first render, on mount, fires nothing. *)
Lemma useEffect_on_mount : useEffect initial = (initial, []).
Proof. reflexivity. Qed.








End facts.

(** *** Examples *)

Import Samples.


Lemma empty_text_not_succeeded_witness :
  ∃ s', provider_settled (H := sample_engine) (card 1) (succeeded "") initial = Some s'
    ∧ successfulResponses s'
      = List.filter (λ q, negb (String.eqb (id q) "claude")) (successfulResponses initial)
    ∧ responseText (H := sample_engine) s'
      = responseText (H := sample_engine) (setResponses (delete "claude") initial)
    ∧ List.filter drawn (card_body s' (card 1)) = [WaitingForPrompt].
Proof.
  apply (@empty_text_not_succeeded sample_engine (card 1)
           (JObj [("response", JStr ""); ("model", JStr "m")]) initial);
    reflexivity.
Defined.


Lemma failed_summary_not_logged_witness :
  summary_settled
    (seen_by_page
       (Api.handler (H := sample_engine) (λ _, Api.Rejected "offline")
          {["OPENAI_API_KEY" := "sk"]} (posted (summary_call (H := sample_engine) initial))).1)
    initial
  = (setSummaryLoading false initial, []).
Proof.
  destruct (@failed_summary_not_logged sample_engine (λ _, Api.Rejected "offline")
              {["OPENAI_API_KEY" := "sk"]} initial) as (message & _ & Hpage).
  - reflexivity.
  - exact Hpage.
Defined.





End Ui_facts.

(** ** More of the query endpoint *)

Module Api_extra.
Import Api Trace.

Section facts.
Context `{Runtime}.

Implicit Types (net : Outbound → Fetched) (env : Env) (config : Config).

Lemma prop_ok v k : nullish v = false → prop v k = Ok (opt_prop v k).
Proof. by destruct v. Qed.

Lemma prop_throw v k : nullish v = true → ∃ msg, prop v k = Throw msg.
Proof. destruct v; try done; by eexists. Qed.

Lemma first_ok v : nullish v = false → first v = Ok (opt_first v).
Proof. destruct v as [| | | |[|c s]| |]; done. Qed.

Lemma first_throw v : nullish v = true → ∃ msg, first v = Throw msg.
Proof. destruct v; try done; by eexists. Qed.

Lemma lookup_provider_registered key config :
  lookup_provider key = Some (Registered config) → own key PROVIDERS = Some config.
Proof.
  unfold lookup_provider. destruct (own key PROVIDERS); [by intros [= ->]|].
  by case_match.
Qed.

(** What [dispatch] comes to, once the call is built: the [catch], the
    pass-through of a failure status, or the success. *)
Lemma dispatch_cases net env prompt provider config call :
  outbound config env prompt = Ok call →
  (∃ msg, dispatch net env prompt provider config
          = (Responded 500 (error_body (JStr (modelName config +:+ ": " +:+ msg))),
             [Fetch call; ConsoleError ("Error with " +:+ ToString provider +:+ ":") msg]))
  ∨ (∃ status errorData,
       net call = Response status (Ok errorData) ∧ ok status = false
       ∧ dispatch net env prompt provider config
         = (Responded status
              (error_body
                 (hinted_message config status (parsed_message config status errorData))),
            [Fetch call; ConsoleError (ToString provider +:+ " error:") errorData]))
  ∨ (∃ status raw data text,
       net call = Response status (Ok raw) ∧ ok status = true
       ∧ JSON_parse raw = Ok data ∧ extractResponse config data = Ok text
       ∧ dispatch net env prompt provider config
         = (Responded 200 (JObj [("response", text); ("model", JStr (modelName config))]),
            [Fetch call])).
Proof.
  intros Hcall. unfold dispatch. rewrite Hcall.
  destruct (net call) as [msg|status [raw|msg]] eqn:Hnet; cbn.
  - left. by eexists.
  - destruct (ok status) eqn:Hok; cbn.
    + destruct (JSON_parse raw) as [data|msg] eqn:Hparse; cbn; [|left; by eexists].
      destruct (extractResponse config data) as [text|msg] eqn:Hx; [|left; by eexists].
      right; right. by exists status, raw, data, text.
    + right; left. by exists status, raw.
  - destruct (ok status); cbn; left; by eexists.
Qed.

(** The ways through [handler]. *)
Lemma handler_cases net env req :
  (method req ≠ "POST"
   ∧ handler net env req = (Responded 405 (error_body (JStr "Method not allowed")), []))
  ∨ (method req = "POST" ∧ nullish (body req) = true
     ∧ ∃ msg, handler net env req = (Uncaught msg, []))
  ∨ (method req = "POST" ∧ nullish (body req) = false
     ∧ ∃ prompt provider,
         destructure (body req) = Ok (prompt, provider)
         ∧ ((truthy prompt && truthy provider = false
             ∧ handler net env req
               = (Responded 400 (error_body (JStr "Missing prompt or provider")), []))
            ∨ (truthy prompt = true ∧ truthy provider = true
               ∧ ((lookup_provider (ToString provider) = None
                   ∧ handler net env req
                     = (Responded 400 (error_body (JStr "Unknown provider")), []))
                  ∨ (lookup_provider (ToString provider) = Some Inherited
                     ∧ handler net env req
                       = (if key_present (env !! "undefined")
                          then caught provider "undefined" "config.getHeaders is not a function"
                          else (Responded 500
                                  (error_body
                                     (JStr "Missing API key: undefined. Add it in Vercel Environment Variables.")),
                                [])))
                  ∨ (∃ config,
                       own (ToString provider) PROVIDERS = Some config
                       ∧ handler net env req
                         = (if key_present (env !! keyEnvVar config)
                            then dispatch net env prompt provider config
                            else (Responded 500
                                    (error_body
                                       (JStr ("Missing API key: " +:+ keyEnvVar config
                                                +:+ ". Add it in Vercel Environment Variables."))),
                                  []))))))).
Proof.
  unfold handler. case String.eqb_spec; intros Hm; cbn [negb]; [|by left].
  right. destruct (nullish (body req)) eqn:Hnull.
  - left. destruct (body req); try done; cbn; (split; [done|]); (split; [done|]); by eexists.
  - right. split; [done|]. split; [done|].
    exists (opt_prop (body req) "prompt"), (opt_prop (body req) "provider").
    assert (destructure (body req)
            = Ok (opt_prop (body req) "prompt", opt_prop (body req) "provider")) as ->
      by (by destruct (body req)).
    split; [done|].
    destruct (truthy (opt_prop (body req) "prompt")) eqn:Hp; cbn; [|by left].
    destruct (truthy (opt_prop (body req) "provider")) eqn:Hq; cbn; [|by left].
    right. split; [done|]. split; [done|].
    destruct (lookup_provider _) as [[config|]|] eqn:Hlook; [| |by left].
    + right; right. exists config.
      apply lookup_provider_registered in Hlook.
      split; [done|]. rewrite (Api_facts.registered_key _ _ _ Hlook).
      by destruct (key_present _).
    + right; left. split; [done|]. by destruct (key_present _).
Qed.


(** The trace of a request that reaches [dispatch] holds the one call. *)
Lemma dispatch_trace net env prompt provider config call :
  outbound config env prompt = Ok call →
  fetches (dispatch net env prompt provider config).2 = [call]
  ∧ (length (logged (dispatch net env prompt provider config).2) = 0
     ∧ (∃ answer, (dispatch net env prompt provider config).1 = Responded 200 answer)
     ∨ length (logged (dispatch net env prompt provider config).2) = 1
       ∧ ∃ code answer, (dispatch net env prompt provider config).1 = Responded code answer
                        ∧ ok code = false).
Proof.
  intros Hcall.
  destruct (dispatch_cases net env prompt provider config call Hcall)
    as [[msg ->]|[(status & errorData & _ & Hok & ->)|(status & raw & data & text & _ & _ & _ & _ & ->)]];
    (split; [done|]); cbn.
  - right. split; [done|]. by do 2 eexists.
  - right. split; [done|]. by do 2 eexists.
  - left. split; [done|]. by eexists.
Qed.

(** The handler calls out at most once, and only for a POST that carries
    a prompt, names a registered provider and finds that provider's
    credential in the environment; the call is the one built for that
    provider. *)
Theorem handler_fetches_once_with_key net env req :
  length (fetches (handler net env req).2) ≤ 1
  ∧ ∀ call, call ∈ fetches (handler net env req).2 →
      method req = "POST"
      ∧ ∃ prompt provider config,
          destructure (body req) = Ok (prompt, provider)
          ∧ truthy prompt = true ∧ truthy provider = true
          ∧ own (ToString provider) PROVIDERS = Some config
          ∧ key_present (env !! keyEnvVar config) = true
          ∧ outbound config env prompt = Ok call.
Proof.
  destruct (handler_cases net env req)
    as [[_ ->]|[(_ & _ & msg & ->)|(Hm & _ & prompt & provider & Hb &
         [[_ ->]|(Hp & Hq & [[_ ->]|[[_ ->]|(config & Hreg & ->)]])])]];
    try (split; [cbn; lia|by intros call ?%elem_of_nil]).
  - destruct (key_present _); (split; [cbn; lia|by intros call ?%elem_of_nil]).
  - destruct (key_present (env !! keyEnvVar config)) eqn:Hkey;
      [|split; [cbn; lia|by intros call ?%elem_of_nil]].
    destruct (Api_facts.registered_outbound _ _ env prompt Hreg) as [call Hcall].
    destruct (dispatch_trace net env prompt provider config call Hcall) as [-> _].
    split; [done|]. intros call' ->%list_elem_of_singleton.
    split; [done|]. by exists prompt, provider, config.
Qed.




(** A provider name that [Object.prototype] defines (constructor,
    toString, __proto__, ...) passes the check of line 103: the request is
    not answered 400 'Unknown provider' but 500, without a call; unless the
    environment has a variable named undefined, the message is that of a
    missing key named undefined, and nothing is logged. *)
Theorem handler_inherited_name net env req prompt provider :
  method req = "POST" →
  destructure (body req) = Ok (prompt, provider) →
  truthy prompt = true → truthy provider = true →
  ToString provider ∈ object_prototype →
  ∃ message,
    (handler net env req).1 = Responded 500 (error_body (JStr message))
    ∧ fetches (handler net env req).2 = []
    ∧ (env !! "undefined" = None →
       handler net env req
       = (Responded 500
            (error_body
               (JStr "Missing API key: undefined. Add it in Vercel Environment Variables.")),
          [])).
Proof.
  intros Hm Hb Hp Hq Hin.
  assert (lookup_provider (ToString provider) = Some Inherited) as Hlook.
  { unfold lookup_provider. rewrite (bool_decide_eq_true_2 _ Hin).
    unfold object_prototype in Hin.
    repeat (apply elem_of_cons in Hin as [->|Hin]; [done|]).
    by apply elem_of_nil in Hin. }
  unfold handler. rewrite Hm, Hb, Hp, Hq, Hlook. cbn.
  destruct (env !! "undefined") as [value|] eqn:Hkey; cbn.
  - destruct (negb (String.eqb value "")); cbn; eexists; by split.
  - eexists. by split.
Qed.

(** The extractor of chatgpt, grok and perplexity throws exactly when a
    link of [data.choices[0].message] is [null] or [undefined]; otherwise
    it returns whatever [content] holds, [undefined] included. *)
Theorem choices_content_throws data :
  ((∃ msg, choices_content data = Throw msg)
   ↔ nullish data = true
     ∨ nullish (opt_prop data "choices") = true
     ∨ nullish (opt_first (opt_prop data "choices")) = true
     ∨ nullish (opt_prop (opt_first (opt_prop data "choices")) "message") = true)
  ∧ ((∀ msg, choices_content data ≠ Throw msg) →
     choices_content data
     = Ok (opt_prop (opt_prop (opt_first (opt_prop data "choices")) "message") "content")).
Proof.
  unfold choices_content.
  destruct (nullish data) eqn:H1.
  { destruct (prop_throw data "choices" H1) as [msg ->]. cbn.
    split; [split; [by left|by eexists]|]. intros Hne. by destruct (Hne msg). }
  rewrite (prop_ok _ _ H1). cbn.
  destruct (nullish (opt_prop data "choices")) eqn:H2.
  { destruct (first_throw _ H2) as [msg ->]. cbn.
    split; [split; [by right; left|by eexists]|]. intros Hne. by destruct (Hne msg). }
  rewrite (first_ok _ H2). cbn.
  destruct (nullish (opt_first (opt_prop data "choices"))) eqn:H3.
  { destruct (prop_throw _ "message" H3) as [msg ->]. cbn.
    split; [split; [by right; right; left|by eexists]|]. intros Hne. by destruct (Hne msg). }
  rewrite (prop_ok _ _ H3). cbn.
  destruct (nullish (opt_prop (opt_first (opt_prop data "choices")) "message")) eqn:H4.
  { destruct (prop_throw _ "content" H4) as [msg ->].
    split; [split; [by right; right; right|by eexists]|]. intros Hne. by destruct (Hne msg). }
  rewrite (prop_ok _ _ H4).
  split; [split|done]; [by intros [? ?]|by intros [?|[?|[?|?]]]].
Qed.

Lemma gemini_text_falsy candidates :
  truthy candidates = false → truthy (gemini_text candidates) = false.
Proof. by destruct candidates as [| |[]| |[|c s]| |]. Qed.

(** The extractor of gemini never returns a falsy text: on a body that is
    not [null] it returns the text at
    [candidates[0].content.parts[0].text] when that is truthy, and throws
    'Unexpected Gemini response format' otherwise. *)
Theorem gemini_extracts_truthy_text data :
  nullish data = false →
  extractResponse gemini data
  = (if truthy (gemini_text (opt_prop data "candidates"))
     then Ok (gemini_text (opt_prop data "candidates"))
     else Throw "Unexpected Gemini response format")
  ∧ ∀ text, extractResponse gemini data = Ok text → truthy text = true.
Proof.
  intros Hdata. cbn. rewrite (prop_ok _ _ Hdata). cbn.
  destruct (truthy (opt_prop data "candidates")) eqn:Hc; cbn.
  - split; [done|]. intros text. by case_match; intros [= <-].
  - rewrite (gemini_text_falsy _ Hc). by split.
Qed.

(** The call built for a registered provider reads no variable of the
    environment but that provider's own credential, which it sends in a
    header or, for gemini, in the address; it is a POST whose body is
    built from the prompt alone. *)
Theorem outbound_reads_own_key key config env prompt k :
  own key PROVIDERS = Some config →
  env !! keyEnvVar config = Some k →
  ∃ call,
    outbound config env prompt = Ok call
    ∧ out_method call = "POST"
    ∧ out_body call = getBody config prompt
    ∧ (Ui.contains k (out_url call) = true
       ∨ ∃ header, header ∈ out_headers call ∧ Ui.contains k header.2 = true)
    ∧ ∀ env', env' !! keyEnvVar config = Some k →
        outbound config env' prompt = Ok call.
Proof.
  intros Hreg Hk.
  assert (∀ before, Ui.contains k (before +:+ k) = true) as Hends.
  { intros before. rewrite <-(Ui_facts.append_nil_r k) at 2.
    apply Ui_facts.contains_append. }
  destruct (Api_facts.registered_cases _ _ Hreg) as [->|[->|[->|[->| ->]]]];
    cbn in Hk; eexists; (split; [reflexivity|]); cbn;
    unfold env_text; rewrite Hk; cbn;
    (split; [done|]); (split; [done|]).
  - split; [right; eexists; split; [apply list_elem_of_here|apply Hends]|].
    intros env' Hk'. unfold outbound; cbn. unfold env_text. by rewrite Hk'.
  - split; [right; eexists; split; [apply list_elem_of_here|apply (Hends "")]|].
    intros env' Hk'. unfold outbound; cbn. unfold env_text. by rewrite Hk'.
  - split; [left; apply Hends|].
    intros env' Hk'. unfold outbound; cbn. unfold env_text. by rewrite Hk'.
  - split; [right; eexists; split; [apply list_elem_of_here|apply Hends]|].
    intros env' Hk'. unfold outbound; cbn. unfold env_text. by rewrite Hk'.
  - split; [right; eexists; split; [apply list_elem_of_here|apply Hends]|].
    intros env' Hk'. unfold outbound; cbn. unfold env_text. by rewrite Hk'.
Qed.

End facts.

Import More_samples.

Lemma handler_fetches_once_with_key_witness :
  method (ask "claude") = "POST"
  ∧ ∃ prompt provider config,
      destructure (H := sample_engine) (body (ask "claude")) = Ok (prompt, provider)
      ∧ truthy prompt = true ∧ truthy provider = true
      ∧ own (ToString (H := sample_engine) provider) PROVIDERS = Some config
      ∧ key_present (claude_env !! keyEnvVar config) = true
      ∧ outbound config claude_env prompt = Ok claude_call.
Proof.
  apply (proj2 (@handler_fetches_once_with_key sample_engine offline claude_env (ask "claude"))).
  vm_compute. apply list_elem_of_here.
Defined.




Lemma handler_inherited_name_witness :
  handler (H := sample_engine) offline claude_env (ask "constructor")
  = (Responded 500
       (error_body (JStr "Missing API key: undefined. Add it in Vercel Environment Variables.")),
     []).
Proof.
  destruct (@handler_inherited_name sample_engine offline claude_env (ask "constructor")
              (JStr "hi") (JStr "constructor")) as (message & _ & _ & Hreply);
    [reflexivity..|by apply (bool_decide_unpack _)|].
  apply Hreply. by vm_compute.
Defined.

Lemma choices_content_throws_witness : choices_content chat_body = Ok (JStr "Hello").
Proof.
  apply (proj2 (choices_content_throws chat_body)).
  intros msg. by vm_compute.
Defined.

Lemma gemini_extracts_truthy_text_witness :
  extractResponse gemini gemini_body = Ok (JStr "Hi").
Proof.
  destruct (gemini_extracts_truthy_text gemini_body eq_refl) as [Heq _].
  rewrite Heq. reflexivity.
Defined.

Lemma outbound_reads_own_key_witness :
  ∃ call,
    outbound claude claude_env (JStr "hi") = Ok call
    ∧ out_method call = "POST"
    ∧ out_body call = getBody claude (JStr "hi")
    ∧ (Ui.contains "sk" (out_url call) = true
       ∨ ∃ header, header ∈ out_headers call ∧ Ui.contains "sk" header.2 = true)
    ∧ ∀ env', env' !! keyEnvVar claude = Some "sk" →
        outbound claude env' (JStr "hi") = Ok call.
Proof.
  apply (outbound_reads_own_key "claude" claude claude_env (JStr "hi") "sk");
    by vm_compute.
Defined.

End Api_extra.

(** ** More of the comparison page *)

Module Ui_extra.
Import Ui Page.

Section facts.
Context `{Runtime}.

Implicit Types (s : State) (provider : Provider) (a : Answer).








(** The guard against a second run is on the button only. While a
    provider is loading the button is disabled, but Cmd+Enter or
    Ctrl+Enter still calls [handleSubmit], which starts over: five new
    calls with the prompt of the field, and every earlier response and
    error dropped. Any other key, and Enter without a modifier, does
    nothing. *)
Theorem keyboard_submit_ignores_loading s :
  truthy (JStr (trim (prompt s))) = true →
  anyLoading s = true →
  submit_disabled s = true
  ∧ handleKeyDown "Enter" true false s = handleSubmit s
  ∧ handleKeyDown "Enter" false true s = handleSubmit s
  ∧ (handleSubmit s).2
    = map (λ p, ProviderCall {| call_prompt := prompt s; call_provider := id p |}) AI_PROVIDERS
  ∧ responses (handleSubmit s).1 = ∅
  ∧ error (handleSubmit s).1 = ∅
  ∧ ∀ key metaKey ctrlKey,
      key ≠ "Enter" ∨ (metaKey = false ∧ ctrlKey = false) →
      handleKeyDown key metaKey ctrlKey s = (s, []).
Proof.
  intros Hprompt Hload. unfold submit_disabled, handleKeyDown, handleSubmit.
  rewrite Hprompt, Hload. cbn [negb orb andb String.eqb].
  do 6 (split; [reflexivity|]).
  intros key metaKey ctrlKey [Hkey|[-> ->]].
  - apply String.eqb_neq in Hkey. by rewrite Hkey.
  - by rewrite andb_false_r.
Qed.

(** The summary panel: when the effect fires in a state without a summary
    the panel appears with the spinner and the placeholder; when the
    summary call then fails the panel disappears, with no error in it;
    when it succeeds with a truthy text the panel shows that text and no
    spinner. *)
Theorem summary_panel_states s :
  truthy (summary s) = false →
  summary_panel (generateSummary s).1 = Some [Spinner; Synthesizing]
  ∧ (∀ a, summary_failed a = true →
       summary_panel (summary_settled a (generateSummary s).1).1 = None)
  ∧ (∀ data text, prop data "response" = Ok text → truthy text = true →
       summary_panel (summary_settled (Answered true (Ok data)) (generateSummary s).1).1
       = Some [SummaryText text]).
Proof.
  intros Hsum. split; [|split].
  - unfold summary_panel, generateSummary; cbn. by rewrite Hsum.
  - intros a Ha.
    destruct (Ui_facts.failed_summary_is_silent a (generateSummary s).1 Ha) as [-> _].
    unfold summary_panel, generateSummary; cbn. by rewrite Hsum.
  - intros data text Hdata Htext. unfold summary_settled. rewrite Hdata.
    unfold summary_panel; cbn. by rewrite Htext.
Qed.

(** *** A run, step by step *)










(** *** The order of completions *)






(** *** The page and the endpoint together *)

Lemma nonblank_truthy text :
  truthy (JStr (trim text)) = true → truthy (JStr text) = true.
Proof. by destruct text. Qed.

(** Every call the page issues - the five of [handleSubmit] and the one
    of [generateSummary] - passes the argument checks of the handler: it
    is a POST with a prompt for a provider of the registry, so it is
    answered by the credential check or by [dispatch], never with 405 or
    with a 400 of the handler's own. *)
Theorem page_calls_reach_dispatch s c net env :
  ProviderCall c ∈ (handleSubmit s).2 ∨ SummaryCall c ∈ (generateSummary s).2 →
  ∃ config,
    Api.own (call_provider c) Api.PROVIDERS = Some config
    ∧ Api.handler net env (posted c)
      = (if Api.key_present (env !! Api.keyEnvVar config)
         then Api.dispatch net env (JStr (call_prompt c)) (JStr (call_provider c)) config
         else (Api.Responded 500
                 (Api.error_body
                    (JStr ("Missing API key: " +:+ Api.keyEnvVar config
                             +:+ ". Add it in Vercel Environment Variables."))),
               [])).
Proof.
  intros Hc.
  assert (truthy (JStr (call_prompt c)) = true
          ∧ call_provider c ∈ id <$> AI_PROVIDERS) as [Hprompt Hid].
  { destruct Hc as [Hc|Hc].
    - unfold handleSubmit in Hc.
      destruct (truthy (JStr (trim (prompt s)))) eqn:Hblank; cbn [negb] in Hc;
        [|by apply elem_of_nil in Hc].
      cbn [snd] in Hc. apply list_elem_of_fmap in Hc as (p & [= ->] & Hp).
      split; [by apply nonblank_truthy|].
      change (id p ∈ id <$> AI_PROVIDERS). by apply list_elem_of_fmap_2.
    - apply list_elem_of_singleton in Hc as [= ->].
      split; [apply Ui_facts.summaryPrompt_truthy|]. cbn. set_solver. }
  assert (∃ config, Api.own (call_provider c) Api.PROVIDERS = Some config
                    ∧ truthy (JStr (call_provider c)) = true) as (config & Hreg & Hname).
  { cbn in Hid. repeat (apply elem_of_cons in Hid as [->|Hid]; [by eexists|]).
    by apply elem_of_nil in Hid. }
  exists config. split; [done|].
  destruct (Api.key_present (env !! Api.keyEnvVar config)) eqn:Hkey.
  - by apply (Api_facts.handler_dispatches net env (posted c)
                (JStr (call_prompt c)) (JStr (call_provider c)) config).
  - by apply (Api_facts.missing_key_reply net env (posted c)
                (JStr (call_prompt c)) (JStr (call_provider c)) config).
Qed.


End facts.

Import Samples More_samples.


Lemma keyboard_submit_ignores_loading_witness :
  submit_disabled all_loading = true
  ∧ handleKeyDown "Enter" true false all_loading = handleSubmit all_loading
  ∧ handleKeyDown "Enter" false true all_loading = handleSubmit all_loading.
Proof.
  destruct (keyboard_submit_ignores_loading all_loading)
    as (Hdisabled & Hmeta & Hctrl & _); [by vm_compute..|].
  split; [exact Hdisabled|]. split; [exact Hmeta|exact Hctrl].
Defined.

Lemma summary_panel_states_witness :
  summary_panel (generateSummary (H := sample_engine) initial).1
  = Some [Spinner; Synthesizing].
Proof.
  apply (proj1 (@summary_panel_states sample_engine initial eq_refl)).
Defined.




Lemma page_calls_reach_dispatch_witness :
  ∃ config,
    Api.own "grok" Api.PROVIDERS = Some config
    ∧ Api.handler (H := sample_engine) offline claude_env
        (posted {| call_prompt := "hi"; call_provider := "grok" |})
      = (if Api.key_present (claude_env !! Api.keyEnvVar config)
         then Api.dispatch (H := sample_engine) offline claude_env (JStr "hi") (JStr "grok") config
         else (Api.Responded 500
                 (Api.error_body
                    (JStr ("Missing API key: " +:+ Api.keyEnvVar config
                             +:+ ". Add it in Vercel Environment Variables."))),
               [])).
Proof.
  apply (@page_calls_reach_dispatch sample_engine (setPrompt "hi" initial)
           {| call_prompt := "hi"; call_provider := "grok" |} offline claude_env).
  left. vm_compute. do 3 apply list_elem_of_further. apply list_elem_of_here.
Defined.


End Ui_extra.

(** ** The batch function *)

Module Batch_facts.
Import Api Batch.

Section facts.
Context `{Runtime}.

Implicit Types (net : Outbound → Fetched) (env : Env).

Lemma request_registered env prompt entry :
  entry ∈ PROVIDERS → ∃ call, request entry.2 env prompt = Ok call.
Proof.
  unfold PROVIDERS. intros Hin.
  repeat (apply elem_of_cons in Hin as [->|Hin]; [by eexists|]).
  by apply elem_of_nil in Hin.
Qed.

Lemma query_one_name net env prompt entry name response :
  (query_one net env prompt entry).1 = Ok (name, response) → name = entry.1.
Proof.
  unfold query_one. destruct (request entry.2 env prompt) as [call|]; [|done]. cbn.
  destruct (net call) as [|status text]; [done|].
  destruct (negb (ok status)); [done|].
  destruct text as [raw|]; cbn; [|done].
  destruct (JSON_parse raw) as [data|]; cbn; [|done].
  destruct (extractResponse entry.2 data); cbn; [|done]. by intros [= <-].
Qed.

Lemma result_name net env prompt entry :
  provider (match (query_one net env prompt entry).1 with
            | Ok (name, response) => Response_of name response
            | Throw msg => Error_of entry.1 msg
            end) = entry.1.
Proof.
  destruct (query_one net env prompt entry).1 as [[name response]|] eqn:Hone; [|done].
  by apply query_one_name in Hone as ->.
Qed.

(** [queryAll] returns one result for each provider of the registry, in
    registry order and under its name, and makes exactly one call for each,
    in the same order - whatever the network does and whatever the
    environment holds: it checks no credential, so the calls go out even
    with none set. *)
Theorem queryAll_one_result_each net env prompt :
  provider <$> (queryAll net env prompt).1 = PROVIDERS.*1
  ∧ ∃ c1 c2 c3 c4 c5,
      (queryAll net env prompt).2 = [c1; c2; c3; c4; c5]
      ∧ request chatgpt env prompt = Ok c1
      ∧ request claude env prompt = Ok c2
      ∧ request gemini env prompt = Ok c3
      ∧ request grok env prompt = Ok c4
      ∧ request perplexity env prompt = Ok c5.
Proof.
  split.
  - unfold queryAll, PROVIDERS.
    cbn -[query_one chatgpt claude gemini grok perplexity].
    f_equal; [exact (result_name net env prompt ("chatgpt", chatgpt))|].
    f_equal; [exact (result_name net env prompt ("claude", claude))|].
    f_equal; [exact (result_name net env prompt ("gemini", gemini))|].
    f_equal; [exact (result_name net env prompt ("grok", grok))|].
    f_equal. exact (result_name net env prompt ("perplexity", perplexity)).
  - do 5 eexists. split; [reflexivity|]. by repeat split.
Qed.

(** In [queryAll] the providers are isolated from each other: the result
    of a provider depends on the answer to its own call only, and the
    calls do not depend on the network at all. *)
Theorem queryAll_isolates_providers net net' env prompt i call :
  (queryAll net env prompt).2 !! i = Some call →
  net call = net' call →
  (queryAll net env prompt).1 !! i = (queryAll net' env prompt).1 !! i
  ∧ (queryAll net env prompt).2 = (queryAll net' env prompt).2.
Proof.
  intros Hcall Hnet. split; [|done].
  unfold queryAll, PROVIDERS in *. cbn in Hcall |- *.
  do 5 (destruct i as [|i]; [cbn in *; simplify_eq/=; unfold query_one; cbn;
                              by rewrite Hnet|]).
  done.
Qed.

(** A provider that answers with a failure status is reported by
    [queryAll] as '<name> failed': neither the status nor the body of the
    answer reaches the result. *)
Theorem queryAll_hides_failure_detail net env prompt i entry call status text :
  PROVIDERS !! i = Some entry →
  request entry.2 env prompt = Ok call →
  net call = Response status text →
  ok status = false →
  (queryAll net env prompt).1 !! i = Some (Error_of entry.1 (entry.1 +:+ " failed")).
Proof.
  intros Hentry Hcall Hnet Hok.
  unfold queryAll, PROVIDERS in *. cbn in Hentry |- *.
  do 5 (destruct i as [|i]; [cbn in *; simplify_eq/=; unfold query_one; cbn in *;
                              simplify_eq/=; by rewrite Hnet, Hok|]).
  done.
Qed.

End facts.

Import More_samples.

Lemma queryAll_isolates_providers_witness :
  (queryAll (H := sample_engine) offline ∅ (JStr "hi")).1 !! 1
  = (queryAll (H := sample_engine)
       (λ call, if String.eqb (out_url call) "https://api.anthropic.com/v1/messages"
                then Rejected "offline" else Response 200 (Ok "{}"))
       ∅ (JStr "hi")).1 !! 1.
Proof.
  eapply proj1, (@queryAll_isolates_providers sample_engine offline
           (λ call, if String.eqb (out_url call) "https://api.anthropic.com/v1/messages"
                    then Rejected "offline" else Response 200 (Ok "{}"))
           ∅ (JStr "hi") 1); by vm_compute.
Defined.

Lemma queryAll_hides_failure_detail_witness :
  (queryAll (H := sample_engine)
     (λ _, Response 401 (Ok "{ error: { message: 'bad key' } }")) ∅ (JStr "hi")).1 !! 1
  = Some (Error_of "claude" "claude failed").
Proof.
  eapply (@queryAll_hides_failure_detail sample_engine
            (λ _, Response 401 (Ok "{ error: { message: 'bad key' } }")) ∅ (JStr "hi") 1
            ("claude", claude)); by vm_compute.
Defined.

End Batch_facts.
